(** * main.py of the NM3 Pico driver demonstrator, as a monadic program

    [src/main.py] is a MicroPython module of five statements: a
    triple-quoted string literal (lines 12-29) followed by four lines of
    code (lines 30-33) that talk to an acoustic-modem driver.  The module is
    embedded here statement by statement as a computation in a state and
    exception monad; the driver, which lives in another module, is an
    oracle that answers each call. *)

From Stdlib Require Import ZArith String Ascii List.
From stdpp Require Import base option list gmap strings pretty.

Local Open Scope string_scope.
Local Open Scope Z_scope.

(** ** Values *)

(** The interpreter's floating-point numbers and their textual conversion
    are not fixed by the module (MicroPython on the Pico uses single
    precision, CPython double precision); both are taken as given. *)
Class PyFloat := {
  float : Type;
  float_str : float -> string
}.

(** Exceptions carry the name of their class and one argument. *)
Record exn := Exn { exn_class : string; exn_arg : string }.

Definition NameError (x : string) : exn := Exn "NameError" x.
Definition AttributeError (a : string) : exn := Exn "AttributeError" a.
Definition TypeError (msg : string) : exn := Exn "TypeError" msg.

(** The two built-in names the module mentions. *)
Inductive builtin := Print | StrType.

Definition builtin_of_name (x : string) : option builtin :=
  if decide (x = "print") then Some Print
  else if decide (x = "str") then Some StrType
  else None.

(** Result of a computation: a value, or a raised exception. *)
Inductive res (A : Type) :=
| Val (a : A)
| Exc (e : exn).
Arguments Val {A} a.
Arguments Exc {A} e.

Section Python.
Context {F : PyFloat}.

(** Plain data: what the script passes to the driver and what the driver
    hands back. *)
Inductive data :=
| PyNone
| PyBool (b : bool)
| PyInt (n : Z)
| PyFlt (x : float)
| PyStr (s : string).

(** Values that a name or an expression of the module can denote: data,
    a built-in, the driver class, a driver instance (identified by the
    number of its allocation) and a method bound to an instance. *)
Inductive value :=
| Data (d : data)
| Builtin (b : builtin)
| DriverClass
| DriverObj (id : nat)
| BoundMethod (self : nat) (name : string).

(** ** The driver *)

Inductive call :=
| Construct (args : list value)
| Method (self : nat) (name : string) (args : list value).

Inductive outcome :=
| Returns (d : data)
| Raises (e : exn).

(** What a run does to the outside world, in the order it happens: calls
    to the driver, with their answers, and text written to standard
    output. *)
Inductive effect :=
| Called (c : call) (o : outcome)
| Printed (s : string).

(** A driver answers a call knowing what has happened so far. *)
Definition driver := list effect -> call -> outcome.

(** ** Interpreter state *)

Record state := State {
  globals : gmap string value;
  next_obj : nat;
  log : list effect
}.

Definition M (A : Type) : Type := state -> res A * state.

Definition ret {A} (a : A) : M A := fun st => (Val a, st).

Definition raise {A} (e : exn) : M A := fun st => (Exc e, st).

Definition bind {A B} (m : M A) (k : A -> M B) : M B :=
  fun st =>
    match m st with
    | (Val a, st') => k a st'
    | (Exc e, st') => (Exc e, st')
    end.

Notation "x <- m ;; k" := (bind m (fun x => k))
  (at level 100, m at next level, right associativity).
Notation "m ;; k" := (bind m (fun _ => k))
  (at level 100, right associativity).

(** ** Textual conversion, [str(v)] *)

(** The text that [str] returns for a value and that [print] writes for
    it.  Numbers are written in decimal; the text of a float is the
    interpreter's. *)

Definition data_str (d : data) : string :=
  match d with
  | PyNone => "None"
  | PyBool true => "True"
  | PyBool false => "False"
  | PyInt n => pretty n
  | PyFlt x => float_str x
  | PyStr s => s
  end.

Definition py_str (v : value) : string :=
  match v with
  | Data d => data_str d
  | Builtin Print => "<function>"
  | Builtin StrType => "<class 'str'>"
  | DriverClass => "<class 'NM3Driver'>"
  | DriverObj id => "<NM3Driver object at " +:+ pretty id +:+ ">"
  | BoundMethod _ _ => "<bound_method>"
  end.

Definition newline : string := String "010" EmptyString.

(** ** Primitive operations *)

(** Modelled from the spec: the methods of a driver instance.  The class
    [NM3Driver] is defined in module [nm3_pico_driver], which is not among
    the sources at hand; section 6 of the specification lists the methods
    the script relies on. *)
Definition driver_methods : list string :=
  ["connect"; "get_voltage"; "ping"; "send_unicast_message"; "get_address"].

(** Name lookup: module globals first, then the built-ins. *)
Definition load_name (x : string) : M value :=
  fun st =>
    match globals st !! x with
    | Some v => (Val v, st)
    | None =>
        match builtin_of_name x with
        | Some b => (Val (Builtin b), st)
        | None => (Exc (NameError x), st)
        end
    end.

Definition store_name (x : string) (v : value) : M unit :=
  fun st =>
    (Val tt, State (<[x := v]> (globals st)) (next_obj st) (log st)).

(** Attribute lookup, [v.a].  A driver instance has the methods of the
    contract.  Plain data (None, booleans, numbers, text) has no attribute
    of those names.  The module asks for no other attribute and never for
    an attribute of a callable: those lookups are not modelled and raise
    AttributeError too. *)
Definition load_attr (v : value) (a : string) : M value :=
  match v with
  | DriverObj id =>
      if decide (a ∈ driver_methods) then ret (BoundMethod id a)
      else raise (AttributeError a)
  | _ => raise (AttributeError a)
  end.

Definition write (s : string) : M unit :=
  fun st =>
    (Val tt, State (globals st) (next_obj st) (log st ++ [Printed s])).

Definition new_object : M value :=
  fun st =>
    (Val (DriverObj (next_obj st)),
     State (globals st) (S (next_obj st)) (log st)).

Section WithDriver.
Variable drv : driver.

(** Put a call to the driver and log it with its answer. *)
Definition ask (c : call) : M outcome :=
  fun st =>
    let o := drv (log st) c in
    (Val o, State (globals st) (next_obj st) (log st ++ [Called c o])).

(** [f(args)] for an evaluated callee and evaluated arguments.  [print]
    writes the conversions of its arguments, separated by blanks, and a
    newline; calling the class asks the driver to construct an instance;
    calling a bound method asks the driver to run it.  Data is not
    callable, nor is a driver instance (the contract has no call
    operator). *)
Definition apply_value (f : value) (args : list value) : M value :=
  match f with
  | Builtin Print =>
      write (String.concat " " (map py_str args) +:+ newline) ;;
      ret (Data PyNone)
  | Builtin StrType =>
      match args with
      | [] => ret (Data (PyStr ""))
      | [v] => ret (Data (PyStr (py_str v)))
      | _ => raise (TypeError "str takes at most one positional argument")
      end
  | DriverClass =>
      o <- ask (Construct args) ;;
      match o with
      | Returns _ => new_object
      | Raises e => raise e
      end
  | BoundMethod self m =>
      o <- ask (Method self m args) ;;
      match o with
      | Returns d => ret (Data d)
      | Raises e => raise e
      end
  | Data _ | DriverObj _ => raise (TypeError "object isn't callable")
  end.

(** ** Expressions and statements *)

Definition const (d : data) : M value := ret (Data d).

Definition name (x : string) : M value := load_name x.

Definition attr (e : M value) (a : string) : M value :=
  v <- e ;; load_attr v a.

(** Arguments are evaluated from left to right. *)
Fixpoint eval_args (es : list (M value)) : M (list value) :=
  match es with
  | [] => ret []
  | e :: es' => v <- e ;; vs <- eval_args es' ;; ret (v :: vs)
  end.

(** The callee is evaluated before the arguments. *)
Definition call_ (f : M value) (es : list (M value)) : M value :=
  fv <- f ;; vs <- eval_args es ;; apply_value fv vs.

Definition expr_stmt (e : M value) : M unit := e ;; ret tt.

Definition assign (x : string) (e : M value) : M unit :=
  v <- e ;; store_name x v.

(** ** The module *)

Definition dq : string := String "034" EmptyString.

(** Value of the string literal of lines 12-29. *)
Definition block_text : string :=
  String.concat newline
    [ "";
      "from nm3_pico_driver import NM3Driver";
      "message = " +:+ dq +:+ "Ocean Lab Test" +:+ dq;
      "modem = 169";
      "";
      "pico = NM3Driver()";
      "pico.connect()";
      "#addr = pico.get_address()";
      "#print(f" +:+ dq +:+ "Address: {addr}" +:+ dq +:+ ")";
      "";
      "voltage = pico.get_voltage()";
      "print(f" +:+ dq +:+ "Voltage: {voltage}" +:+ dq +:+ ")";
      "distance = str(pico.ping(modem))";
      "";
      "print(f" +:+ dq +:+ "Distance to modem 169: {distance}" +:+ dq +:+ ")";
      "send_test = pico.send_unicast_message(modem, distance)";
      "print(f" +:+ dq
        +:+ "Sending message: {message}. To modem: {modem}. Returning: {send_test}."
        +:+ dq +:+ ")";
      "" ].

(** Lines 12-29: an expression statement whose expression is a string
    literal.  MicroPython, the interpreter the file header names, keeps
    no module docstring, so the statement only evaluates the constant. *)
Definition string_literal_stmt : M unit :=
  expr_stmt (const (PyStr block_text)).

(** Line 30: [pico = NM3Driver()] *)
Definition line30 : M unit :=
  assign "pico" (call_ (name "NM3Driver") []).

(** Line 31: [pico.connect()] *)
Definition line31 : M unit :=
  expr_stmt (call_ (attr (name "pico") "connect") []).

(** Line 32: [print("Ping 169", pico.ping(169))] *)
Definition line32 : M unit :=
  expr_stmt
    (call_ (name "print")
       [ const (PyStr "Ping 169");
         call_ (attr (name "pico") "ping") [const (PyInt 169)] ]).

(** Line 33: [pico.send_unicast_message(169, "Test")] *)
Definition line33 : M unit :=
  expr_stmt
    (call_ (attr (name "pico") "send_unicast_message")
       [const (PyInt 169); const (PyStr "Test")]).

Definition active_code : M unit :=
  line30 ;; line31 ;; line32 ;; line33.

Definition main : M unit :=
  string_literal_stmt ;; active_code.

End WithDriver.

(** ** Running the module *)

(** The interpreter state in which the module starts: the host's
    namespace [g], [n] objects already allocated and an empty log. *)
Definition boot (g : gmap string value) (n : nat) : state :=
  State g n [].

(** The namespace of a module executed on its own. *)
Definition module_globals : gmap string value :=
  {[ "__name__" := Data (PyStr "__main__") ]}.

(** The namespace when the host has bound [NM3Driver] to the driver class
    before the module runs: a boot script or an interactive session that
    imported it into the namespace the module is executed in, or a test
    harness that injects a mocked class. *)
Definition preloaded_globals : gmap string value :=
  <[ "NM3Driver" := DriverClass ]> module_globals.

Definition run (drv : driver) (g : gmap string value) (n : nat)
  : res unit * state :=
  main drv (boot g n).

(** How the run ends: [Val tt] when the last statement has been executed,
    [Exc e] when [e] reached the top level. *)
Definition completion (drv : driver) (g : gmap string value) (n : nat)
  : res unit :=
  fst (run drv g n).

(** Everything the run did, in order. *)
Definition effects (drv : driver) (g : gmap string value) (n : nat)
  : list effect :=
  log (snd (run drv g n)).

(** The namespace the run leaves behind. *)
Definition final_globals (drv : driver) (g : gmap string value) (n : nat)
  : gmap string value :=
  globals (snd (run drv g n)).

(** ** Reading a log *)

Fixpoint calls (l : list effect) : list call :=
  match l with
  | [] => []
  | Called c _ :: l' => c :: calls l'
  | Printed _ :: l' => calls l'
  end.

Fixpoint answers (l : list effect) : list outcome :=
  match l with
  | [] => []
  | Called _ o :: l' => o :: answers l'
  | Printed _ :: l' => answers l'
  end.

(** The pieces of text written, in order. *)
Fixpoint writes (l : list effect) : list string :=
  match l with
  | [] => []
  | Printed s :: l' => s :: writes l'
  | Called _ _ :: l' => writes l'
  end.

(** Standard output: the written pieces, one after the other. *)
Definition printed (l : list effect) : string :=
  String.concat "" (writes l).

(** Names of the methods called, in order. *)
Fixpoint method_names (l : list effect) : list string :=
  match l with
  | [] => []
  | Called (Method _ m _) _ :: l' => m :: method_names l'
  | _ :: l' => method_names l'
  end.

(** Arguments and answer of every call of method [m], in order. *)
Fixpoint calls_of (m : string) (l : list effect)
  : list (list value * outcome) :=
  match l with
  | [] => []
  | Called (Method _ m' args) o :: l' =>
      if decide (m' = m) then (args, o) :: calls_of m l' else calls_of m l'
  | _ :: l' => calls_of m l'
  end.

(** Number of driver objects that came into being. *)
Fixpoint constructed (l : list effect) : nat :=
  match l with
  | [] => 0%nat
  | Called (Construct _) (Returns _) :: l' => S (constructed l')
  | _ :: l' => constructed l'
  end.

(** No driver call of the log raised. *)
Fixpoint all_returned (l : list effect) : Prop :=
  match l with
  | [] => True
  | Called _ (Raises _) :: _ => False
  | _ :: l' => all_returned l'
  end.

(** The entry is not a method call on an instance other than [id]. *)
Definition on_instance (id : nat) (e : effect) : Prop :=
  match e with
  | Called (Method self _ _) _ => self = id
  | _ => True
  end.

(** The driver calls written on lines 30 to 33, in the order of the lines,
    for a run whose driver object is number [id]. *)
Definition script_calls (id : nat) : list call :=
  [ Construct [];
    Method id "connect" [];
    Method id "ping" [Data (PyInt 169)];
    Method id "send_unicast_message" [Data (PyInt 169); Data (PyStr "Test")] ].

(** The values that the calls of method [m] returned, in order. *)
Fixpoint results_of (m : string) (l : list effect) : list data :=
  match l with
  | [] => []
  | Called (Method _ m' _) (Returns d) :: l' =>
      if decide (m' = m) then d :: results_of m l' else results_of m l'
  | _ :: l' => results_of m l'
  end.

(** The line that line 32 writes for a ping result. *)
Definition ping_line (d : data) : string :=
  "Ping 169 " +:+ data_str d +:+ newline.

End Python.

(** ** Sample hosts and drivers *)

(** Floats with integral values, written the way Python writes them. *)
Definition whole_floats : PyFloat :=
  {| float := Z; float_str := fun z => pretty z +:+ ".0" |}.

(** A driver whose calls all return: the ping reports 12.0, the send 4. *)
Definition all_ok : @driver whole_floats :=
  fun _ c =>
    match c with
    | Method _ "ping" _ => Returns (PyFlt (12 : @float whole_floats))
    | Method _ "send_unicast_message" _ => Returns (PyInt 4)
    | Method _ "get_voltage" _ => Returns (PyFlt (5 : @float whole_floats))
    | _ => Returns PyNone
    end.

(** A driver that cannot be constructed. *)
Definition no_modem : @driver whole_floats :=
  fun _ c =>
    match c with
    | Construct _ => Raises (Exn "OSError" "UART")
    | _ => Returns PyNone
    end.

(** A driver whose [connect] raises. *)
Definition connect_fails : @driver whole_floats :=
  fun _ c =>
    match c with
    | Method _ "connect" _ => Raises (Exn "OSError" "no modem")
    | _ => Returns PyNone
    end.

(** A driver whose [send_unicast_message] raises. *)
Definition send_fails : @driver whole_floats :=
  fun _ c =>
    match c with
    | Method _ "ping" _ => Returns (PyInt 7)
    | Method _ "send_unicast_message" _ => Raises (Exn "OSError" "timeout")
    | _ => Returns PyNone
    end.

(** A driver whose [ping] raises. *)
Definition ping_fails : @driver whole_floats :=
  fun _ c =>
    match c with
    | Method _ "ping" _ => Raises (Exn "OSError" "no reply")
    | _ => Returns PyNone
    end.

(** * Properties *)

(** ** Equations of the monad and of the primitive operations *)

Section Equations.
Context {F : PyFloat}.
Variable drv : driver.

Lemma bind_assoc {A B C} (m : M A) (f : A -> M B) (k : B -> M C) st :
  bind (bind m f) k st = bind m (fun x => bind (f x) k) st.
Proof. unfold bind. destruct (m st) as [[a|e] st']; reflexivity. Qed.

Lemma bind_ret_l {A B} (a : A) (k : A -> M B) st :
  bind (ret a) k st = k a st.
Proof. reflexivity. Qed.

Lemma bind_raise {A B} e (k : A -> M B) st :
  bind (raise e) k st = (Exc e, st).
Proof. reflexivity. Qed.

Lemma bind_load_name {B} x (k : value -> M B) st :
  bind (load_name x) k st =
  match globals st !! x with
  | Some v => k v st
  | None =>
      match builtin_of_name x with
      | Some b => k (Builtin b) st
      | None => (Exc (NameError x), st)
      end
  end.
Proof.
  unfold bind, load_name.
  destruct (globals st !! x); [reflexivity|].
  destruct (builtin_of_name x); reflexivity.
Qed.

Lemma bind_store_name {B} x v (k : unit -> M B) st :
  bind (store_name x v) k st =
  k tt (State (<[x := v]> (globals st)) (next_obj st) (log st)).
Proof. reflexivity. Qed.

Lemma bind_write {B} s (k : unit -> M B) st :
  bind (write s) k st =
  k tt (State (globals st) (next_obj st) (log st ++ [Printed s])).
Proof. reflexivity. Qed.

Lemma bind_new_object {B} (k : value -> M B) st :
  bind new_object k st =
  k (DriverObj (next_obj st)) (State (globals st) (S (next_obj st)) (log st)).
Proof. reflexivity. Qed.

Lemma bind_ask {B} c (k : outcome -> M B) st :
  bind (ask drv c) k st =
  k (drv (log st) c)
    (State (globals st) (next_obj st) (log st ++ [Called c (drv (log st) c)])).
Proof. reflexivity. Qed.

Lemma load_attr_obj id a :
  bool_decide (a ∈ driver_methods) = true ->
  load_attr (DriverObj id) a = ret (BoundMethod id a).
Proof.
  intros Ha. apply bool_decide_eq_true in Ha.
  unfold load_attr. rewrite decide_True; done.
Qed.

(** The built-in [str] applied to one value returns its conversion and
    does nothing else. *)
Lemma apply_str v st :
  apply_value drv (Builtin StrType) [v] st = (Val (Data (PyStr (py_str v))), st).
Proof. reflexivity. Qed.

(** [print] applied to values writes their conversions, blanks between
    them and a newline after them, in one piece. *)
Lemma apply_print vs st :
  apply_value drv (Builtin Print) vs st =
    (Val (Data PyNone),
     State (globals st) (next_obj st)
       (log st ++ [Printed (String.concat " " (map py_str vs) +:+ newline)])).
Proof. reflexivity. Qed.

End Equations.

Lemma builtin_NM3Driver : builtin_of_name "NM3Driver" = None.
Proof. reflexivity. Qed.

Lemma builtin_pico : builtin_of_name "pico" = None.
Proof. reflexivity. Qed.

Lemma builtin_print : builtin_of_name "print" = Some Print.
Proof. reflexivity. Qed.

(** ** Symbolic execution of the module *)

(** One step of execution of the computation [H : R = c st]: look at the
    head of [c], apply the matching equation, resolve a lookup, or split on
    what the host bound to a name and on what the driver answered. *)
Ltac exec_bind H R m k st :=
  lazymatch m with
  | bind ?m' ?f =>
      let E := fresh in
      pose proof (eq_trans H (bind_assoc m' f k st)) as E; clear H; rename E into H
  | ret ?a => change (R = k a st) in H
  | raise ?e => change (R = (Exc e, st)) in H
  | store_name ?x ?v =>
      change (R = k tt (State (<[x := v]> (globals st)) (next_obj st) (log st))) in H
  | write ?s =>
      change (R = k tt (State (globals st) (next_obj st) (log st ++ [Printed s]))) in H
  | new_object =>
      change (R = k (DriverObj (next_obj st))
                    (State (globals st) (S (next_obj st)) (log st))) in H
  | ask ?drv ?c =>
      change (R = k (drv (log st) c)
                    (State (globals st) (next_obj st)
                       (log st ++ [Called c (drv (log st) c)]))) in H
  | load_name ?x =>
      let E := fresh in
      pose proof (eq_trans H (bind_load_name x k st)) as E; clear H; rename E into H
  | load_attr (DriverObj ?id) ?a =>
      change (R = bind (ret (BoundMethod id a)) k st) in H
  | match ?o with Returns _ => _ | Raises _ => _ end => destruct o eqn:?
  | _ =>
      first
        [ progress cbn [apply_value load_attr eval_args] in H
        | progress unfold expr_stmt, assign, call_, attr, name, const in H
        | progress unfold string_literal_stmt in H
        | progress unfold line30 in H
        | progress unfold line31 in H
        | progress unfold line32 in H
        | progress unfold line33 in H ]
  end.

Ltac exec_lookup H :=
  first
    [ rewrite lookup_insert_eq in H
    | rewrite lookup_insert_ne in H by done
    | match goal with
      | Hx : ?g !! ?x = _ |- _ =>
          match type of H with context [g !! x] => rewrite Hx in H end
      end
    | match type of H with
      | context [match ?g !! ?x with Some _ => _ | None => _ end] =>
          is_var g;
          let v := fresh "v" in
          destruct (g !! x) as [v|] eqn:?; [destruct v as [?|[]| | |]|]
      end ].

Ltac exec_step H :=
  lazymatch type of H with
  | ?R = bind ?m ?k ?st => exec_bind H R m k st
  | _ = match _ !! _ with Some _ => _ | None => _ end =>
      first [ progress cbn [globals] in H | exec_lookup H ]
  | _ = match builtin_of_name _ with Some _ => _ | None => _ end =>
      first [ rewrite builtin_NM3Driver in H
            | rewrite builtin_pico in H
            | rewrite builtin_print in H ]
  | _ = (fun _ => _) _ _ => cbv beta in H
  | _ = (fun _ => _) _ => cbv beta in H
  | _ = match _ with Some _ => _ | None => _ end => cbv beta iota in H
  | ?R = ret ?a ?st => change (R = (Val a, st)) in H
  | _ = line33 _ _ => unfold line33, expr_stmt in H
  end.

(** Forget what is known of the driver's answers and of the host's
    bindings once the run has been evaluated. *)
Ltac forget_facts :=
  repeat match goal with
         | H : _ = Returns _ |- _ => clear H
         | H : _ = Raises _ |- _ => clear H
         | H : _ !! _ = Some _ |- _ => clear H
         | H : _ !! _ = None |- _ => clear H
         end.

(** Replace [run drv g n] by its value, case by case. *)
Ltac run_cases :=
  unfold completion, effects, final_globals in *;
  match goal with
  | |- context [run ?drv ?g ?n] =>
      let R := fresh "R" in
      let HR := fresh "HR" in
      remember (run drv g n) as R eqn:HR in *;
      unfold run, main, active_code, boot in HR;
      repeat exec_step HR;
      cbn [globals next_obj log app] in HR;
      subst R
  end.

Section Properties.
Context {F : PyFloat}.

(** *** The script alone *)

(** Without a binding for [NM3Driver] in the host namespace the run stops
    at line 30, before anything has happened. *)
Lemma run_unbound (drv : driver) g n :
  g !! "NM3Driver" = None ->
  run drv g n = (Exc (NameError "NM3Driver"), State g n []).
Proof. intros Hg. run_cases. reflexivity. Qed.

(** The run binds no name but [pico]. *)
Lemma final_globals_frame (drv : driver) g n x :
  x <> "pico" -> final_globals drv g n !! x = g !! x.
Proof.
  intros Hx. run_cases.
  all: cbn [snd globals]; rewrite ?lookup_insert_ne by done; reflexivity.
Qed.

(** A run that has the driver class, the built-in [print] and a driver
    that answers every call goes through all four lines; this is its
    complete log. *)
Lemma successful_run_log (drv : driver) g n :
  g !! "NM3Driver" = Some DriverClass ->
  g !! "print" = None ->
  all_returned (effects drv g n) ->
  exists d0 d1 d r,
    completion drv g n = Val tt /\
    effects drv g n =
      [ Called (Construct []) (Returns d0);
        Called (Method n "connect" []) (Returns d1);
        Called (Method n "ping" [Data (PyInt 169)]) (Returns d);
        Printed ("Ping 169 " +:+ data_str d +:+ newline);
        Called (Method n "send_unicast_message"
                  [Data (PyInt 169); Data (PyStr "Test")]) (Returns r) ].
Proof.
  intros Hc Hp. run_cases.
  all: cbn [fst snd log all_returned]; intros Hall; try contradiction.
  eexists _, _, _, _. split; reflexivity.
Qed.

(** *** Failures *)

(** An exception raised by a driver call ends the run then and there. *)
Lemma raise_is_final (drv : driver) g n i c e :
  effects drv g n !! i = Some (Called c (Raises e)) ->
  completion drv g n = Exc e /\ length (effects drv g n) = S i.
Proof.
  run_cases.
  all: forget_facts; cbn [fst snd log]; intros Hi.
  all: repeat (destruct i as [|i]; simplify_eq/=); done.
Qed.

(** C5: when the driver's connect call raises, the run ends with that
    call: it is the last entry of the log, so no further driver call is
    issued and nothing is printed after it (nor was anything printed
    before it), and the exception reaches the top level. *)
Theorem connect_failure_stops_run (drv : driver) g n i o a e :
  effects drv g n !! i = Some (Called (Method o "connect" a) (Raises e)) ->
  completion drv g n = Exc e /\
  length (effects drv g n) = S i /\
  printed (effects drv g n) = "".
Proof.
  intros Hi.
  destruct (raise_is_final drv g n i _ e Hi) as [Hc Hl].
  split; [exact Hc|]. split; [exact Hl|].
  clear Hc Hl. revert Hi. run_cases.
  all: forget_facts; cbn [fst snd log]; intros Hi.
  all: repeat (destruct i as [|i]; simplify_eq/=); done.
Qed.

(** C6: whichever driver call raises, and whatever it raises, the script
    does not catch it: the raising call is the last thing the run does
    (no retry, no recovery, no further output) and the very same
    exception is what the run ends with. *)
Theorem driver_errors_propagate (drv : driver) g n i c e :
  effects drv g n !! i = Some (Called c (Raises e)) ->
  completion drv g n = Exc e /\
  length (effects drv g n) = S i /\
  forall j, (i < j)%nat -> effects drv g n !! j = None.
Proof.
  intros Hi.
  destruct (raise_is_final drv g n i c e Hi) as [Hc Hl].
  split; [exact Hc|]. split; [exact Hl|].
  intros j Hj. apply lookup_ge_None. lia.
Qed.

(** *** Runs that go through *)

(** C1 (as amended): when the host provides the driver class and every
    driver call returns, the run completes and the calls it made are, in
    this order, one construction, one connect, one ping of address 169 and
    one send_unicast_message to address 169, all on the object just
    constructed; there is no voltage query among them. *)
Theorem driver_calls_in_order (drv : driver) g n :
  g !! "NM3Driver" = Some DriverClass ->
  g !! "print" = None ->
  all_returned (effects drv g n) ->
  completion drv g n = Val tt /\
  calls (effects drv g n) =
    [ Construct [];
      Method n "connect" [];
      Method n "ping" [Data (PyInt 169)];
      Method n "send_unicast_message" [Data (PyInt 169); Data (PyStr "Test")] ] /\
  method_names (effects drv g n) = ["connect"; "ping"; "send_unicast_message"].
Proof.
  intros Hc Hp Hall.
  destruct (successful_run_log drv g n Hc Hp Hall) as (d0 & d1 & d & r & Hdone & Hlog).
  rewrite Hlog. split; [exact Hdone|]. split; reflexivity.
Qed.

(** C3 (as amended): in a run that goes through, the one message sent
    carries the fixed text Test, not the text of the ping result; it goes
    to address 169, the address that was pinged; and what the send returns
    is dropped: standard output holds the line written for the ping and
    nothing else. *)
Theorem send_payload_and_output (drv : driver) g n :
  g !! "NM3Driver" = Some DriverClass ->
  g !! "print" = None ->
  all_returned (effects drv g n) ->
  exists d r,
    calls_of "ping" (effects drv g n) = [([Data (PyInt 169)], Returns d)] /\
    calls_of "send_unicast_message" (effects drv g n) =
      [([Data (PyInt 169); Data (PyStr "Test")], Returns r)] /\
    printed (effects drv g n) = "Ping 169 " +:+ data_str d +:+ newline.
Proof.
  intros Hc Hp Hall.
  destruct (successful_run_log drv g n Hc Hp Hall) as (d0 & d1 & d & r & _ & Hlog).
  exists d, r. rewrite Hlog. repeat split; reflexivity.
Qed.

(** C4 (as amended): in a run that goes through, no get_voltage call is
    made and no voltage is printed; nothing at all is written before the
    ranging call, and the only output is the line that follows it. *)
Theorem no_voltage_query (drv : driver) g n :
  g !! "NM3Driver" = Some DriverClass ->
  g !! "print" = None ->
  all_returned (effects drv g n) ->
  exists d,
    calls_of "get_voltage" (effects drv g n) = [] /\
    effects drv g n !! 2%nat =
      Some (Called (Method n "ping" [Data (PyInt 169)]) (Returns d)) /\
    printed (take 2 (effects drv g n)) = "" /\
    printed (effects drv g n) = "Ping 169 " +:+ data_str d +:+ newline.
Proof.
  intros Hc Hp Hall.
  destruct (successful_run_log drv g n Hc Hp Hall) as (d0 & d1 & d & r & _ & Hlog).
  exists d. rewrite Hlog. repeat split; reflexivity.
Qed.

(** C7: whatever value the ping call returns, the next thing the run does
    is to print the line made of the label and of [str] of that value,
    and this line is all that is ever written: the conversion is applied
    once, by [print], and its result is written as it is. *)
Theorem ping_result_printed_as_str (drv : driver) g n i o d :
  g !! "print" = None ->
  effects drv g n !! i =
    Some (Called (Method o "ping" [Data (PyInt 169)]) (Returns d)) ->
  effects drv g n !! S i =
    Some (Printed ("Ping 169 " +:+ py_str (Data d) +:+ newline)) /\
  printed (effects drv g n) = "Ping 169 " +:+ py_str (Data d) +:+ newline.
Proof.
  intros Hp. run_cases.
  all: forget_facts; cbn [fst snd log]; intros Hi.
  all: repeat (destruct i as [|i]; simplify_eq/=); done.
Qed.

(** *** One driver object *)

(** C9 (as amended): with the built-in [print] in scope, no run constructs
    more than one driver object; and when the constructor call of line 30
    returns, exactly one object is constructed and every method call of
    the run is made on it. *)
Theorem single_driver_instance (drv : driver) g n :
  g !! "print" = None ->
  (constructed (effects drv g n) <= 1)%nat /\
  (forall d,
     effects drv g n !! 0%nat = Some (Called (Construct []) (Returns d)) ->
     constructed (effects drv g n) = 1%nat /\
     next_obj (snd (run drv g n)) = S n /\
     Forall (on_instance n) (effects drv g n)).
Proof.
  intros Hp. run_cases.
  all: cbn [fst snd log next_obj].
  all: split; [cbn; lia|].
  all: intros d' Hd; simplify_eq/=.
  all: split; [reflexivity|]; split; [reflexivity|].
  all: repeat constructor.
Qed.

(** *** The string literal *)

(** C10: the statement made of the string literal leaves the interpreter
    state as it found it, whatever that state is: the log gets no entry
    (no output, no driver call), the namespace no binding and the heap no
    object.  The module therefore behaves as its last four lines, and after
    any run the names that the text inside the literal would have bound
    (pico apart, which line 30 binds) are as the host had them. *)
Theorem string_literal_is_inert (drv : driver) st g n :
  string_literal_stmt st = (Val tt, st) /\
  main drv st = active_code drv st /\
  Forall (fun x => final_globals drv g n !! x = g !! x)
    ["NM3Driver"; "message"; "modem"; "voltage"; "distance"; "send_test"].
Proof.
  split; [reflexivity|]. split; [reflexivity|].
  repeat constructor; apply final_globals_frame; done.
Qed.

(** C2: run on its own, the module fails at line 30 with a NameError for
    NM3Driver, whatever the driver would have done: the log is empty, so
    no driver method was invoked and nothing was constructed or printed. *)
Theorem standalone_run_name_error (drv : driver) n :
  run drv module_globals n =
    (Exc (NameError "NM3Driver"), State module_globals n []) /\
  completion drv module_globals n = Exc (Exn "NameError" "NM3Driver") /\
  calls (effects drv module_globals n) = [].
Proof.
  assert (Hrun := run_unbound drv module_globals n eq_refl).
  unfold completion, effects. rewrite Hrun. repeat split.
Qed.

(** *** Determinism *)

(** What a run prints, and how it ends, depends on the host only through
    the two names the script reads from it and on the driver only through
    its answers. *)
Lemma output_determined (drv drv' : driver) g g' n n' :
  g' !! "NM3Driver" = g !! "NM3Driver" ->
  g' !! "print" = g !! "print" ->
  answers (effects drv g n) = answers (effects drv' g' n') ->
  printed (effects drv g n) = printed (effects drv' g' n') /\
  completion drv g n = completion drv' g' n'.
Proof.
  intros H1 H2.
  run_cases.
  all: run_cases.
  all: forget_facts; cbn [fst snd log answers]; intros Hans; simplify_eq.
  all: split; reflexivity.
Qed.

(** C8: take a run and a second run whose driver gives the same answers.
    Whether the second run starts from the same namespace as the first (a
    fresh interpreter) or from the namespace the first run left behind
    (the same session, with more objects allocated), it prints the same
    text and ends the same way: nothing a run leaves behind influences
    the next one. *)
Theorem runs_are_repeatable (drv drv' : driver) g g' n n' :
  g' = g \/ g' = final_globals drv g n ->
  answers (effects drv' g' n') = answers (effects drv g n) ->
  printed (effects drv' g' n') = printed (effects drv g n) /\
  completion drv' g' n' = completion drv g n.
Proof.
  intros Hg Hans.
  assert (g' !! "NM3Driver" = g !! "NM3Driver" /\ g' !! "print" = g !! "print")
    as [H1 H2].
  { destruct Hg as [-> | ->]; [split; reflexivity|].
    split; apply final_globals_frame; done. }
  destruct (output_determined drv drv' g g' n n' H1 H2 (eq_sym Hans)) as [Hp Hc].
  split; [exact (eq_sym Hp) | exact (eq_sym Hc)].
Qed.

(** *** Runs that stop early, and what every run leaves behind *)

(** The state in which a run that goes through ends. *)
Lemma successful_run_state (drv : driver) g n :
  g !! "NM3Driver" = Some DriverClass ->
  g !! "print" = None ->
  all_returned (effects drv g n) ->
  completion drv g n = Val tt /\
  final_globals drv g n = <["pico" := DriverObj n]> g /\
  next_obj (snd (run drv g n)) = S n /\
  calls (effects drv g n) = script_calls n.
Proof.
  intros Hc Hp. run_cases.
  all: cbn [fst snd log globals next_obj all_returned]; intros Hall; try contradiction.
  repeat split.
Qed.

(** X1: every run, whether it goes through or stops on an error (the
    NameError of line 30 included), makes the driver calls of lines 30 to
    33 in the order of the lines and stops somewhere along them: its calls
    are a prefix of the full sequence.  It ends normally exactly when it
    made all four calls and all of them returned. *)
Theorem calls_are_a_prefix (drv : driver) g n :
  g !! "NM3Driver" = None \/ g !! "NM3Driver" = Some DriverClass ->
  g !! "print" = None ->
  calls (effects drv g n) `prefix_of` script_calls n /\
  (completion drv g n = Val tt <->
   calls (effects drv g n) = script_calls n /\ all_returned (effects drv g n)).
Proof.
  intros [Hc|Hc] Hp; run_cases.
  all: forget_facts; cbn [fst snd log calls all_returned]; unfold script_calls.
  all: split; [eexists; reflexivity|].
  all: split.
  all: try (intros H; discriminate H).
  all: try (intros [H1 H2]; first [discriminate H1 | contradiction]).
  all: try (intros _; split; [reflexivity | exact I]).
  all: try (intros _; reflexivity).
Qed.

(** X2: when the ping of line 32 raises, nothing has been written: the
    label of the line is an argument of the same print call and that call
    is never made.  No message is sent either, and the run ends with the
    exception of the ping. *)
Theorem ping_failure_prints_nothing (drv : driver) g n i o e :
  effects drv g n !! i =
    Some (Called (Method o "ping" [Data (PyInt 169)]) (Raises e)) ->
  printed (effects drv g n) = "" /\
  calls_of "send_unicast_message" (effects drv g n) = [] /\
  completion drv g n = Exc e.
Proof.
  run_cases.
  all: forget_facts; cbn [fst snd log]; intros Hi.
  all: repeat (destruct i as [|i]; simplify_eq/=); done.
Qed.

(** X3: when the send of line 33 raises, the line written for the ping
    stays on standard output: the run ends with the exception of the send,
    after one ping that returned and whose result is on that line. *)
Theorem send_failure_keeps_output (drv : driver) g n i o e :
  g !! "print" = None ->
  effects drv g n !! i =
    Some (Called (Method o "send_unicast_message"
                    [Data (PyInt 169); Data (PyStr "Test")]) (Raises e)) ->
  exists d,
    calls_of "ping" (effects drv g n) = [([Data (PyInt 169)], Returns d)] /\
    printed (effects drv g n) = ping_line d /\
    completion drv g n = Exc e.
Proof.
  intros Hp. run_cases.
  all: forget_facts; cbn [fst snd log]; intros Hi.
  all: repeat (destruct i as [|i]; simplify_eq/=).
  all: eexists; repeat split.
Qed.

(** X4: the only trace a run leaves in the namespace is the binding of
    pico, and it depends on the constructor alone.  If the constructor
    returns, pico is bound to the new object, also when a later line fails;
    if it raises, the namespace is the one the run started with. *)
Theorem namespace_after_run (drv : driver) g n :
  g !! "NM3Driver" = Some DriverClass ->
  final_globals drv g n =
    match drv [] (Construct []) with
    | Returns _ => <["pico" := DriverObj n]> g
    | Raises _ => g
    end.
Proof.
  intros Hc. run_cases.
  all: cbn [fst snd log globals] in *.
  all: repeat match goal with
         | H : ?f [] (Construct []) = _ |- _ => rewrite H
         end; reflexivity.
Qed.

(** X5: standard output holds one line for each value that a ping
    returned, and nothing else: runs in which no ping returns write
    nothing, and what the constructor, connect and the send return never
    shows. *)
Theorem output_is_the_ping_lines (drv : driver) g n :
  g !! "NM3Driver" = None \/ g !! "NM3Driver" = Some DriverClass ->
  g !! "print" = None ->
  writes (effects drv g n) = map ping_line (results_of "ping" (effects drv g n)).
Proof.
  intros [Hc|Hc] Hp; run_cases.
  all: reflexivity.
Qed.

(** X6: a second run in the session of a run that went through does not
    reuse the driver object that pico still names: line 30 constructs
    another one, all calls of the second run go to it, and pico names it
    afterwards. *)
Theorem rerun_constructs_anew (drv drv' : driver) g n :
  g !! "NM3Driver" = Some DriverClass ->
  g !! "print" = None ->
  all_returned (effects drv g n) ->
  all_returned
    (effects drv' (final_globals drv g n) (next_obj (snd (run drv g n)))) ->
  final_globals drv g n !! "pico" = Some (DriverObj n) /\
  calls (effects drv' (final_globals drv g n) (next_obj (snd (run drv g n)))) =
    script_calls (S n) /\
  final_globals drv' (final_globals drv g n) (next_obj (snd (run drv g n)))
    !! "pico" = Some (DriverObj (S n)).
Proof.
  intros Hc Hp Hall.
  destruct (successful_run_state drv g n Hc Hp Hall) as (_ & Hg & Hn & _).
  rewrite Hg, Hn. intros Hall'.
  assert (Hc' : <["pico" := DriverObj n]> g !! "NM3Driver" = Some DriverClass)
    by (rewrite lookup_insert_ne by done; exact Hc).
  assert (Hp' : <["pico" := DriverObj n]> g !! "print" = None)
    by (rewrite lookup_insert_ne by done; exact Hp).
  destruct (successful_run_state drv' _ (S n) Hc' Hp' Hall') as (_ & Hg' & _ & Hcalls).
  split; [apply lookup_insert_eq|].
  split; [exact Hcalls|].
  rewrite Hg'. apply lookup_insert_eq.
Qed.

End Properties.

(** ** The theorems at work on sample runs *)

#[local] Existing Instance whole_floats.

Example standalone_run_sample :
  run all_ok module_globals 0 =
    (Exc (NameError "NM3Driver"), State module_globals 0 []).
Proof. reflexivity. Qed.

Example preloaded_run_sample :
  effects all_ok preloaded_globals 0 =
    [ Called (Construct []) (Returns PyNone);
      Called (Method 0 "connect" []) (Returns PyNone);
      Called (Method 0 "ping" [Data (PyInt 169)]) (Returns (@PyFlt whole_floats 12));
      Printed ("Ping 169 12.0" +:+ newline);
      Called (Method 0 "send_unicast_message"
                [Data (PyInt 169); Data (PyStr "Test")]) (Returns (PyInt 4)) ].
Proof. vm_compute. reflexivity. Qed.

Lemma driver_calls_in_order_witness :
  preloaded_globals !! "NM3Driver" = Some DriverClass /\
  preloaded_globals !! "print" = None /\
  all_returned (effects all_ok preloaded_globals 0) /\
  (completion all_ok preloaded_globals 0 = Val tt /\
   calls (effects all_ok preloaded_globals 0) =
     [ Construct [];
       Method 0 "connect" [];
       Method 0 "ping" [Data (PyInt 169)];
       Method 0 "send_unicast_message" [Data (PyInt 169); Data (PyStr "Test")] ] /\
   method_names (effects all_ok preloaded_globals 0) =
     ["connect"; "ping"; "send_unicast_message"]).
Proof.
  split; [reflexivity|]. split; [reflexivity|]. split; [vm_compute; exact I|].
  apply (driver_calls_in_order all_ok preloaded_globals 0).
  - reflexivity.
  - reflexivity.
  - vm_compute. exact I.
Defined.

(** C1 as stated fails: a run in which the class is there and every call
    returns makes no get_voltage call. *)
Lemma voltage_query_not_in_sequence :
  ~ (forall (F : PyFloat) (drv : driver) (g : gmap string value) (n : nat),
       g !! "NM3Driver" = Some DriverClass ->
       g !! "print" = None ->
       all_returned (effects drv g n) ->
       method_names (effects drv g n) =
         ["connect"; "get_voltage"; "ping"; "send_unicast_message"]).
Proof.
  intros H.
  specialize (H whole_floats all_ok preloaded_globals 0%nat).
  assert (Hn : method_names (effects all_ok preloaded_globals 0) =
               ["connect"; "ping"; "send_unicast_message"])
    by (vm_compute; reflexivity).
  rewrite Hn in H.
  discriminate H; [reflexivity | reflexivity | vm_compute; exact I].
Qed.

Lemma send_payload_and_output_witness :
  preloaded_globals !! "NM3Driver" = Some DriverClass /\
  preloaded_globals !! "print" = None /\
  all_returned (effects all_ok preloaded_globals 0) /\
  exists d r,
    calls_of "ping" (effects all_ok preloaded_globals 0) =
      [([Data (PyInt 169)], Returns d)] /\
    calls_of "send_unicast_message" (effects all_ok preloaded_globals 0) =
      [([Data (PyInt 169); Data (PyStr "Test")], Returns r)] /\
    printed (effects all_ok preloaded_globals 0) =
      "Ping 169 " +:+ data_str d +:+ newline.
Proof.
  split; [reflexivity|]. split; [reflexivity|]. split; [vm_compute; exact I|].
  apply (send_payload_and_output all_ok preloaded_globals 0).
  - reflexivity.
  - reflexivity.
  - vm_compute. exact I.
Defined.

(** C3 as stated fails: the ping returned 12.0, the message sent is Test. *)
Lemma payload_is_not_the_distance :
  ~ (forall (F : PyFloat) (drv : driver) (g : gmap string value) (n : nat),
       g !! "NM3Driver" = Some DriverClass ->
       g !! "print" = None ->
       all_returned (effects drv g n) ->
       forall i j o o' a a' p d r,
         effects drv g n !! i = Some (Called (Method o "ping" [a]) (Returns d)) ->
         effects drv g n !! j =
           Some (Called (Method o' "send_unicast_message" [a'; p]) (Returns r)) ->
         p = Data (PyStr (py_str (Data d))) /\
         a' = a /\
         exists pre post,
           printed (effects drv g n) = pre +:+ py_str (Data r) +:+ post).
Proof.
  intros H.
  specialize (H whole_floats all_ok preloaded_globals 0%nat).
  destruct (H eq_refl eq_refl ltac:(vm_compute; exact I)
              2%nat 4%nat 0%nat 0%nat
              (Data (PyInt 169)) (Data (PyInt 169)) (Data (PyStr "Test"))
              (@PyFlt whole_floats 12) (PyInt 4) eq_refl eq_refl)
    as [Hp _].
  discriminate Hp.
Qed.

Lemma no_voltage_query_witness :
  preloaded_globals !! "NM3Driver" = Some DriverClass /\
  preloaded_globals !! "print" = None /\
  all_returned (effects all_ok preloaded_globals 0) /\
  exists d,
    calls_of "get_voltage" (effects all_ok preloaded_globals 0) = [] /\
    effects all_ok preloaded_globals 0 !! 2%nat =
      Some (Called (Method 0 "ping" [Data (PyInt 169)]) (Returns d)) /\
    printed (take 2 (effects all_ok preloaded_globals 0)) = "" /\
    printed (effects all_ok preloaded_globals 0) =
      "Ping 169 " +:+ data_str d +:+ newline.
Proof.
  split; [reflexivity|]. split; [reflexivity|]. split; [vm_compute; exact I|].
  apply (no_voltage_query all_ok preloaded_globals 0).
  - reflexivity.
  - reflexivity.
  - vm_compute. exact I.
Defined.

(** C4 as stated fails: the run below goes through without a get_voltage
    call, so no voltage can have been printed before the ping. *)
Lemma voltage_is_never_queried :
  ~ (forall (F : PyFloat) (drv : driver) (g : gmap string value) (n : nat),
       g !! "NM3Driver" = Some DriverClass ->
       g !! "print" = None ->
       all_returned (effects drv g n) ->
       exists i j k o a v s pre post o' a' r,
         (i < j < k)%nat /\
         effects drv g n !! i =
           Some (Called (Method o "get_voltage" a) (Returns v)) /\
         effects drv g n !! j = Some (Printed s) /\
         s = pre +:+ py_str (Data v) +:+ post /\
         effects drv g n !! k = Some (Called (Method o' "ping" a') r)).
Proof.
  intros H.
  destruct (H whole_floats all_ok preloaded_globals 0%nat
              eq_refl eq_refl ltac:(vm_compute; exact I))
    as (i & j & k & o & a & v & s & pre & post & o' & a' & r & _ & Hi & _).
  rewrite preloaded_run_sample in Hi.
  repeat (destruct i as [|i]; try discriminate Hi).
Qed.

Lemma connect_failure_stops_run_witness :
  effects connect_fails preloaded_globals 0 !! 1%nat =
    Some (Called (Method 0 "connect" []) (Raises (Exn "OSError" "no modem"))) /\
  (completion connect_fails preloaded_globals 0 = Exc (Exn "OSError" "no modem") /\
   length (effects connect_fails preloaded_globals 0) = 2%nat /\
   printed (effects connect_fails preloaded_globals 0) = "").
Proof.
  split; [reflexivity|].
  apply (connect_failure_stops_run connect_fails preloaded_globals 0 1 0 []).
  reflexivity.
Defined.

Lemma driver_errors_propagate_witness :
  effects send_fails preloaded_globals 0 !! 4%nat =
    Some (Called (Method 0 "send_unicast_message"
                    [Data (PyInt 169); Data (PyStr "Test")])
            (Raises (Exn "OSError" "timeout"))) /\
  (completion send_fails preloaded_globals 0 = Exc (Exn "OSError" "timeout") /\
   length (effects send_fails preloaded_globals 0) = 5%nat /\
   forall j, (4 < j)%nat -> effects send_fails preloaded_globals 0 !! j = None).
Proof.
  split; [reflexivity|].
  apply (driver_errors_propagate send_fails preloaded_globals 0 4
           (Method 0 "send_unicast_message" [Data (PyInt 169); Data (PyStr "Test")])
           (Exn "OSError" "timeout")).
  reflexivity.
Defined.

Lemma ping_result_printed_as_str_witness :
  preloaded_globals !! "print" = None /\
  effects all_ok preloaded_globals 0 !! 2%nat =
    Some (Called (Method 0 "ping" [Data (PyInt 169)]) (Returns (@PyFlt whole_floats 12))) /\
  (effects all_ok preloaded_globals 0 !! 3%nat =
     Some (Printed ("Ping 169 " +:+ py_str (Data (@PyFlt whole_floats 12)) +:+ newline)) /\
   printed (effects all_ok preloaded_globals 0) =
     "Ping 169 " +:+ py_str (Data (@PyFlt whole_floats 12)) +:+ newline).
Proof.
  split; [reflexivity|]. split; [reflexivity|].
  apply (ping_result_printed_as_str all_ok preloaded_globals 0 2 0).
  - reflexivity.
  - reflexivity.
Defined.

Lemma single_driver_instance_witness :
  preloaded_globals !! "print" = None /\
  ((constructed (effects all_ok preloaded_globals 0) <= 1)%nat /\
   (forall d,
      effects all_ok preloaded_globals 0 !! 0%nat =
        Some (Called (Construct []) (Returns d)) ->
      constructed (effects all_ok preloaded_globals 0) = 1%nat /\
      next_obj (snd (run all_ok preloaded_globals 0)) = 1%nat /\
      Forall (on_instance 0) (effects all_ok preloaded_globals 0))).
Proof.
  split; [reflexivity|].
  apply (single_driver_instance all_ok preloaded_globals 0).
  reflexivity.
Defined.

(** C9 as stated fails: when the constructor raises, the run has
    constructed no driver object at all. *)
Lemma failed_construction_leaves_no_driver :
  ~ (forall (F : PyFloat) (drv : driver) (g : gmap string value) (n : nat),
       g !! "NM3Driver" = Some DriverClass ->
       g !! "print" = None ->
       constructed (effects drv g n) = 1%nat /\
       Forall (on_instance n) (effects drv g n)).
Proof.
  intros H.
  destruct (H whole_floats no_modem preloaded_globals 0%nat eq_refl eq_refl)
    as [Hone _].
  vm_compute in Hone. discriminate Hone.
Qed.

Lemma runs_are_repeatable_witness :
  (final_globals all_ok preloaded_globals 0 = preloaded_globals \/
   final_globals all_ok preloaded_globals 0 =
     final_globals all_ok preloaded_globals 0) /\
  answers (effects all_ok (final_globals all_ok preloaded_globals 0) 1) =
    answers (effects all_ok preloaded_globals 0) /\
  (printed (effects all_ok (final_globals all_ok preloaded_globals 0) 1) =
     printed (effects all_ok preloaded_globals 0) /\
   completion all_ok (final_globals all_ok preloaded_globals 0) 1 =
     completion all_ok preloaded_globals 0).
Proof.
  split; [right; reflexivity|]. split; [vm_compute; reflexivity|].
  apply (runs_are_repeatable all_ok all_ok preloaded_globals
           (final_globals all_ok preloaded_globals 0) 0 1).
  - right. reflexivity.
  - vm_compute. reflexivity.
Defined.

Lemma calls_are_a_prefix_witness :
  (preloaded_globals !! "NM3Driver" = None \/
   preloaded_globals !! "NM3Driver" = Some DriverClass) /\
  preloaded_globals !! "print" = None /\
  (calls (effects connect_fails preloaded_globals 0) `prefix_of` script_calls 0 /\
   (completion connect_fails preloaded_globals 0 = Val tt <->
    calls (effects connect_fails preloaded_globals 0) = script_calls 0 /\
    all_returned (effects connect_fails preloaded_globals 0))).
Proof.
  split; [right; reflexivity|]. split; [reflexivity|].
  apply (calls_are_a_prefix connect_fails preloaded_globals 0).
  - right. reflexivity.
  - reflexivity.
Defined.

Lemma ping_failure_prints_nothing_witness :
  effects ping_fails preloaded_globals 0 !! 2%nat =
    Some (Called (Method 0 "ping" [Data (PyInt 169)])
            (Raises (Exn "OSError" "no reply"))) /\
  (printed (effects ping_fails preloaded_globals 0) = "" /\
   calls_of "send_unicast_message" (effects ping_fails preloaded_globals 0) = [] /\
   completion ping_fails preloaded_globals 0 = Exc (Exn "OSError" "no reply")).
Proof.
  split; [reflexivity|].
  apply (ping_failure_prints_nothing ping_fails preloaded_globals 0 2 0).
  reflexivity.
Defined.

Lemma send_failure_keeps_output_witness :
  preloaded_globals !! "print" = None /\
  effects send_fails preloaded_globals 0 !! 4%nat =
    Some (Called (Method 0 "send_unicast_message"
                    [Data (PyInt 169); Data (PyStr "Test")])
            (Raises (Exn "OSError" "timeout"))) /\
  exists d,
    calls_of "ping" (effects send_fails preloaded_globals 0) =
      [([Data (PyInt 169)], Returns d)] /\
    printed (effects send_fails preloaded_globals 0) = ping_line d /\
    completion send_fails preloaded_globals 0 = Exc (Exn "OSError" "timeout").
Proof.
  split; [reflexivity|]. split; [reflexivity|].
  apply (send_failure_keeps_output send_fails preloaded_globals 0 4 0).
  - reflexivity.
  - reflexivity.
Defined.

Lemma namespace_after_run_witness :
  preloaded_globals !! "NM3Driver" = Some DriverClass /\
  final_globals connect_fails preloaded_globals 0 =
    match connect_fails [] (Construct []) with
    | Returns _ => <["pico" := DriverObj 0]> preloaded_globals
    | Raises _ => preloaded_globals
    end.
Proof.
  split; [reflexivity|].
  apply (namespace_after_run connect_fails preloaded_globals 0).
  reflexivity.
Defined.

Lemma output_is_the_ping_lines_witness :
  (preloaded_globals !! "NM3Driver" = None \/
   preloaded_globals !! "NM3Driver" = Some DriverClass) /\
  preloaded_globals !! "print" = None /\
  writes (effects send_fails preloaded_globals 0) =
    map ping_line (results_of "ping" (effects send_fails preloaded_globals 0)).
Proof.
  split; [right; reflexivity|]. split; [reflexivity|].
  apply (output_is_the_ping_lines send_fails preloaded_globals 0).
  - right. reflexivity.
  - reflexivity.
Defined.

Lemma rerun_constructs_anew_witness :
  preloaded_globals !! "NM3Driver" = Some DriverClass /\
  preloaded_globals !! "print" = None /\
  all_returned (effects all_ok preloaded_globals 0) /\
  all_returned
    (effects all_ok (final_globals all_ok preloaded_globals 0)
       (next_obj (snd (run all_ok preloaded_globals 0)))) /\
  (final_globals all_ok preloaded_globals 0 !! "pico" = Some (DriverObj 0) /\
   calls (effects all_ok (final_globals all_ok preloaded_globals 0)
            (next_obj (snd (run all_ok preloaded_globals 0)))) =
     script_calls 1 /\
   final_globals all_ok (final_globals all_ok preloaded_globals 0)
     (next_obj (snd (run all_ok preloaded_globals 0)))
     !! "pico" = Some (DriverObj 1)).
Proof.
  split; [reflexivity|]. split; [reflexivity|].
  split; [vm_compute; exact I|]. split; [vm_compute; exact I|].
  apply (rerun_constructs_anew all_ok all_ok preloaded_globals 0).
  - reflexivity.
  - reflexivity.
  - vm_compute. exact I.
  - vm_compute. exact I.
Defined.
